(** * KIMEP classroom schedule normalisation: a shallow embedding

    This development embeds the core of [kimep_classrooms.py] -- the smart
    time-interval parser, the weekday-code decoder, the table preprocessing
    and the availability query -- and proves properties of them.

    Modelling conventions.
    - A Python [str] is a Rocq [string]; characters outside ASCII are the
      bytes of their UTF-8 encoding.  The builtins [str.upper], [str.strip]
      and [int] are modelled on their ASCII behaviour: [upper] maps [a-z]
      to [A-Z] and leaves every other byte alone, white space is the set
      {9..13, 28..31, 32}, and [int] reads an optional sign followed by
      decimal digits that may be grouped by single underscores (the
      interpreter's cap on the number of digits is not modelled).
    - A Python [int] is a [Z]; [None]/[NaN] in a numeric column is [None]
      of an [option Z].
    - A pandas cell is a [value]: either text or the missing marker [NaN].
      A frame is a list of column names and a list of indexed rows;
      [Series.apply] is [map], boolean-mask selection is [filter].
    - [st.error] is modelled by the list of messages it has displayed. *)

From Stdlib Require Import ZArith Lia Strings.Ascii Strings.String.
From stdpp Require Import base option list strings pretty gmap.

Local Open Scope Z_scope.

(** ** Python values and string builtins *)

(** A cell of the raw table, or an argument of the parsers: text, or the
    missing value (NaN / None), the only non-text values the table holds. *)
Inductive value :=
  | NaN
  | Str (s : string).

Global Instance value_eq_dec : EqDecision value.
Proof. solve_decision. Defined.

Module PyStr.

(** White space for [str.strip] and [int] (ASCII part). *)
Definition is_space (c : ascii) : bool :=
  match c with
  | "009" | "010" | "011" | "012" | "013"
  | "028" | "029" | "030" | "031" | " " => true
  | _ => false
  end%char.

Fixpoint lstrip (s : string) : string :=
  match s with
  | String c r => if is_space c then lstrip r else s
  | "" => ""
  end.

Fixpoint rstrip (s : string) : string :=
  match s with
  | String c r =>
      match rstrip r with
      | "" => if is_space c then "" else String c ""
      | r' => String c r'
      end
  | "" => ""
  end.

(** [s.strip()] *)
Definition strip (s : string) : string := rstrip (lstrip s).

(** [c in s] for a one-character [c]. *)
Fixpoint contains_char (c : ascii) (s : string) : bool :=
  match s with
  | String a r => if decide (a = c) then true else contains_char c r
  | "" => false
  end.

(** [needle in hay] *)
Fixpoint contains (needle hay : string) : bool :=
  if String.prefix needle hay then true
  else match hay with
       | String _ r => contains needle r
       | "" => false
       end.

(** [s.replace(c, "")] for a one-character [c]. *)
Fixpoint remove_char (c : ascii) (s : string) : string :=
  match s with
  | String a r =>
      if decide (a = c) then remove_char c r else String a (remove_char c r)
  | "" => ""
  end.

(** [s.replace(old, new)] for a non-empty [old]: leftmost, non-overlapping
    occurrences.  [skip] counts the characters of a matched [old] that are
    still to be dropped. *)
Fixpoint replace_go (old new : string) (skip : nat) (s : string) : string :=
  match s with
  | String a r =>
      match skip with
      | S k => replace_go old new k r
      | O =>
          if String.prefix old s
          then new +:+ replace_go old new (Nat.pred (String.length old)) r
          else String a (replace_go old new O r)
      end
  | "" => ""
  end.
Definition replace (old new s : string) : string := replace_go old new O s.

Definition upper_char (c : ascii) : ascii :=
  let n := nat_of_ascii c in
  if ((97 <=? n)%nat && (n <=? 122)%nat)%bool then ascii_of_nat (n - 32) else c.

(** [s.upper()] *)
Fixpoint upper (s : string) : string :=
  match s with
  | String c r => String (upper_char c) (upper r)
  | "" => ""
  end.

(** [s.split(sep)] for a one-character [sep]: always at least one piece
    (so the branch for an empty split of the rest is never taken). *)
Fixpoint split (sep : ascii) (s : string) : list string :=
  match s with
  | String a r =>
      if decide (a = sep) then "" :: split sep r
      else match split sep r with
           | p :: ps => String a p :: ps
           | [] => [String a ""]
           end
  | "" => [""]
  end.

(** [s.split(sep, 1)]: cut at the first [sep] only; one piece when there
    is no [sep], two otherwise. *)
Fixpoint split1 (sep : ascii) (s : string) : list string :=
  match s with
  | String a r =>
      if decide (a = sep) then [""; r]
      else match split1 sep r with
           | p :: ps => String a p :: ps
           | [] => [String a ""]
           end
  | "" => [""]
  end.

Definition digit_val (c : ascii) : option Z :=
  let n := nat_of_ascii c in
  if ((48 <=? n)%nat && (n <=? 57)%nat)%bool then Some (Z.of_nat n - 48) else None.

(** The digit part of an integer literal: digits, single underscores only
    between digits.  [after_digit] tells that the previous character was a
    digit. *)
Fixpoint int_digits (s : string) (acc : Z) (after_digit : bool) : option Z :=
  match s with
  | String c r =>
      match digit_val c with
      | Some d => int_digits r (10 * acc + d) true
      | None =>
          if (bool_decide (c = "_"%char) && after_digit)%bool
          then int_digits r acc false
          else None
      end
  | "" => if after_digit then Some acc else None
  end.

(** [int(s)]: [None] stands for [ValueError]. *)
Definition int (s : string) : option Z :=
  match strip s with
  | String "+" r => int_digits r 0 false
  | String "-" r => Z.opp <$> int_digits r 0 false
  | t => int_digits t 0 false
  end.

End PyStr.

(** ** The smart time parser *)

(** [to_minutes(t)]; [None] stands for any exception raised inside
    (unpacking a split of the wrong size, or [int] failing). *)
Definition to_minutes (t : string) : option Z :=
  match PyStr.split ":" t with
  | [h; m] =>
      hz ← PyStr.int h;
      mz ← PyStr.int m;
      Some (hz * 60 + mz)
  | _ => None
  end.

(** The body of the [try] block of [parse_interval_smart]. *)
Definition split_times (interval : string) : option (Z * Z) :=
  match PyStr.split1 "-" interval with
  | [start_str; end_str] =>
      start ← to_minutes start_str;
      end_ ← to_minutes end_str;
      Some (start, end_)
  | _ => None
  end.

Definition too_long_message (duration : Z) : string :=
  "Duration too long (" +:+ pretty duration +:+ " min)".

(** The two wraparound steps: the end minute and the [fixed] flag. *)
Definition wraparound (start end_ : Z) : Z * bool :=
  let '(end_, fixed) :=
    if end_ <=? start then (end_ + 720, true) else (end_, false) in
  if end_ <=? start then (end_ + 1440, true) else (end_, fixed).

(** [parse_interval_smart(interval)] returns
    [(start, end, fixed, error message)]. *)
Definition parse_interval_smart (interval : value)
  : option Z * option Z * bool * string :=
  match interval with
  | Str interval =>
      let interval := PyStr.remove_char " " interval in
      if negb (PyStr.contains_char "-" interval) then
        (None, None, false, "Missing dash")
      else if existsb (λ x, PyStr.contains x (PyStr.upper interval))
                      ["ONLINE"; "TBA"] then
        (None, None, false, "Non-time entry")
      else
        match split_times interval with
        | None => (None, None, false, "Bad time format")
        | Some (start, end_) =>
            let '(end_, fixed) := wraparound start end_ in
            let duration := end_ - start in
            if duration >? 300 then
              (Some start, Some end_, false, too_long_message duration)
            else
              (Some start, Some end_, fixed, "")
        end
  | _ => (None, None, false, "Non-string interval")
  end.

(** ** The smart day decoder *)

Definition DAY_TOKEN_MAP : gmap string string :=
  {[ "M" := "Mon"; "T" := "Tue"; "W" := "Wed"; "Th" := "Thu";
     "F" := "Fri"; "St" := "Sat"; "Sn" := "Sun" ]}.

(** [code[i:j]] for [0 <= i <= j]: clamped at the end of the string. *)
Definition slice (code : string) (i j : nat) : string :=
  String.substring i (j - i) code.

(** The [while] loop of [decode_days], one iteration per unit of fuel;
    [None] when the fuel runs out before the loop condition fails.
    [code[i]] with [i] in range is the one-character slice [code[i:i+1]]. *)
Fixpoint tokenize_loop (fuel : nat) (code : string) (i : nat)
    (tokens : list string) : option (list string) :=
  if (i <? String.length code)%nat then
    match fuel with
    | O => None
    | S fuel =>
        if ((i + 2 <=? String.length code)%nat
            && bool_decide (slice code i (i + 2) ∈ ["Th"; "St"; "Sn"]))%bool
        then tokenize_loop fuel code (i + 2) (tokens ++ [slice code i (i + 2)])
        else tokenize_loop fuel code (i + 1) (tokens ++ [slice code i (i + 1)])
    end
  else Some tokens.

(** Keys of a dict filled in list order ([dict.fromkeys]), and likewise the
    values of [Series.unique]: each element once, at its first position. *)
Definition keep_first {A} `{EqDecision A} (l : list A) : list A :=
  fold_left (λ seen x, if decide (x ∈ seen) then seen else seen ++ [x]) l [].

Definition dict_fromkeys (l : list string) : list string := keep_first l.

(** [decode_days(code)].  The loop advances [i] by at least one per
    iteration, so [len(code)] iterations always suffice. *)
Definition decode_days (code : value) : list string :=
  match code with
  | Str code =>
      let code := PyStr.strip code in
      match tokenize_loop (String.length code) code 0 [] with
      | Some tokens =>
          let days := omap (λ t, DAY_TOKEN_MAP !! t) tokens in
          dict_fromkeys days
      | None => []
      end
  | _ => []
  end.

(** ** Preprocessing of the uploaded table *)

Abbreviation row := (gmap string value).

(** A raw frame: column labels and rows; the index of a row is its
    position (the range index of a freshly read table). *)
Record DataFrame := {
  columns : list string;
  rows : list row
}.

(** [df[c]] at one row; a cell the row does not hold is missing. *)
Definition cell (c : string) (r : row) : value := default NaN (r !! c).

(** [.astype(str)]: the missing value becomes the text "nan". *)
Definition astype_str (v : value) : value :=
  match v with
  | NaN => Str "nan"
  | Str s => Str s
  end.

(** [.fillna(x)] *)
Definition fillna (x : string) (v : value) : value :=
  match v with
  | NaN => Str x
  | _ => v
  end.

(** The [.str] accessor applies a string function and keeps missing values. *)
Definition str_map (f : string → string) (v : value) : value :=
  match v with
  | NaN => NaN
  | Str s => Str (f s)
  end.

Definition en_dash : string := String "226" (String "128" (String "147" "")).
Definition em_dash : string := String "226" (String "128" (String "148" "")).

Definition sub_opt (a b : option Z) : option Z :=
  x ← a; y ← b; Some (x - y).

(** A row of the frame after preprocessing: the text columns and the
    columns the function adds. *)
Record NormalizedRow := {
  Index : nat;
  cells : row;
  Start_Min : option Z;
  End_Min : option Z;
  AutoFixed : bool;
  ErrorMessage : string;
  Duration : option Z;
  Start_Hour : option Z;
  Day_List : list string
}.

Definition Hall (r : NormalizedRow) : value := cell "Hall" (cells r).

(** The column assignments of [preprocess_data], at the row of index [i]. *)
Definition normalize_row (i : nat) (r : row) : NormalizedRow :=
  let days := str_map PyStr.strip (astype_str (cell "Days" r)) in
  let hall := fillna "UNKNOWN" (astype_str (cell "Hall" r)) in
  let class_times :=
    str_map (PyStr.remove_char " ")
      (str_map (PyStr.replace "." ":")
         (str_map (PyStr.replace em_dash "-")
            (str_map (PyStr.replace en_dash "-")
               (astype_str (cell "Class_Times" r))))) in
  let '(start_min, end_min, auto_fixed, error_message) :=
    parse_interval_smart class_times in
  {| Index := i;
     cells := <["Class_Times" := class_times]>
                (<["Hall" := hall]> (<["Days" := days]> r));
     Start_Min := start_min;
     End_Min := end_min;
     AutoFixed := auto_fixed;
     ErrorMessage := error_message;
     Duration := sub_opt end_min start_min;
     Start_Hour := (λ s, s `div` 60) <$> start_min;
     Day_List := decode_days days |}.

Definition missing_columns_message : string :=
  "Dataset must contain columns: Days, Class_Times, Hall".

(** [preprocess_data(df)]: the messages shown through [st.error], and the
    pair [(df_valid, df_errors)]; an empty frame is the empty list. *)
Definition preprocess_data (df : DataFrame)
  : list string * (list NormalizedRow * list NormalizedRow) :=
  if (bool_decide ("Days" ∉ columns df)
      || bool_decide ("Class_Times" ∉ columns df)
      || bool_decide ("Hall" ∉ columns df))%bool
  then ([missing_columns_message], ([], []))
  else
    let df := imap normalize_row (rows df) in
    let df_valid := filter (λ r, ErrorMessage r = "") df in
    let df_errors := filter (λ r, ErrorMessage r ≠ "") df in
    ([], (df_valid, df_errors)).

(** ** The availability checker *)

(** Comparisons of a numeric column with a number are false at NaN. *)
Definition le_col (a : option Z) (m : Z) : bool :=
  match a with Some x => x <=? m | None => false end.
Definition gt_col (a : option Z) (m : Z) : bool :=
  match a with Some x => m <? x | None => false end.

Definition unique (l : list value) : list value := keep_first l.

(** [get_availability(df_valid, weekday, hour)] *)
Definition get_availability (df_valid : list NormalizedRow)
    (weekday : string) (hour : Z) : list value * list NormalizedRow :=
  let minute := hour * 60 in
  let df_day := filter (λ r, weekday ∈ Day_List r) df_valid in
  let occupied :=
    filter (λ r, le_col (Start_Min r) minute && gt_col (End_Min r) minute) df_day in
  let all_halls := unique (Hall <$> df_valid) in
  let occupied_halls := unique (Hall <$> occupied) in
  let available := filter (λ h, h ∉ occupied_halls) all_halls in
  (available, occupied).

(** * Predicates and reference definitions used in the statements *)

(** The characters an interval that parses can hold. *)
Definition time_char (c : ascii) : bool :=
  PyStr.is_space c || bool_decide (is_Some (PyStr.digit_val c))
  || bool_decide (c ∈ ["+"; "-"; "_"; ":"]%char).

(** "Contains ONLINE or TBA in any letter case, at any position". *)
Definition mentions_non_time (s : string) : Prop :=
  ∃ before w after,
    s = before +:+ w +:+ after ∧ (PyStr.upper w = "ONLINE" ∨ PyStr.upper w = "TBA").

(** "Rejected with the Duration too long reason". *)
Definition is_too_long (msg : string) : Prop := ∃ n, msg = too_long_message n.

(** ** The day decoder, as the specification words it *)

Module DecoderSpec.

(** Greedy scan: two characters are one token exactly when they spell
    "Th", "St" or "Sn"; otherwise one character is one token. *)
Fixpoint tokens (code : string) : list string :=
  match code with
  | "" => []
  | String a rest =>
      match rest with
      | String b rest' =>
          if bool_decide (String a (String b "") ∈ ["Th"; "St"; "Sn"])
          then String a (String b "") :: tokens rest'
          else String a "" :: tokens rest
      | "" => [String a ""]
      end
  end.

(** The canonical mapping; any other token maps to nothing. *)
Definition weekday (token : string) : option string :=
  if decide (token = "M") then Some "Mon"
  else if decide (token = "T") then Some "Tue"
  else if decide (token = "W") then Some "Wed"
  else if decide (token = "Th") then Some "Thu"
  else if decide (token = "F") then Some "Fri"
  else if decide (token = "St") then Some "Sat"
  else if decide (token = "Sn") then Some "Sun"
  else None.

(** Each element once, in the order of first occurrence. *)
Fixpoint first_occurrences {A} `{EqDecision A} (l : list A) : list A :=
  match l with
  | [] => []
  | x :: l => x :: filter (λ y, y ≠ x) (first_occurrences l)
  end.

Definition decode (code : string) : list string :=
  first_occurrences (omap weekday (tokens (PyStr.strip code))).

End DecoderSpec.

(** The three required columns are among the column labels. *)
Definition has_required_columns (df : DataFrame) : Prop :=
  "Days" ∈ columns df ∧ "Class_Times" ∈ columns df ∧ "Hall" ∈ columns df.

(** A row occupies its hall at [minute] on [weekday]: the weekday is one of
    its decoded days and start <= minute < end (a row without start or end
    occupies nothing). *)
Definition occupying (weekday : string) (minute : Z) (r : NormalizedRow) : Prop :=
  weekday ∈ Day_List r
  ∧ match Start_Min r, End_Min r with
    | Some start, Some end_ => start ≤ minute < end_
    | _, _ => False
    end.

Global Instance occupying_dec weekday minute r :
  Decision (occupying weekday minute r).
Proof. unfold occupying. destruct (Start_Min r), (End_Min r); apply _. Defined.

(** A small table used to run the functions: a class in hall A1, a row with
    a reversed interval and no hall, and a class in hall B2. *)
Definition sample_rows : list row :=
  [ {[ "Days" := Str "MWF"; "Class_Times" := Str "9.00 – 10.00";
       "Hall" := Str "A1" ]};
    {[ "Days" := Str "TTh"; "Class_Times" := Str "9:00-8:00";
       "Hall" := NaN ]};
    {[ "Days" := Str " MWM "; "Class_Times" := Str "10:00-11:15";
       "Hall" := Str "B2" ]} ].


Definition sample_without_hall : DataFrame :=
  {| columns := ["Days"; "Class_Times"; "Room"]; rows := sample_rows |}.

(** * Properties *)

(** ** String builtins *)

Section string_facts.
Implicit Types (s t : string) (c sep : ascii).

Lemma app_cons c s t : String c s +:+ t = String c (s +:+ t).
Proof. reflexivity. Qed.

Lemma app_empty_l t : "" +:+ t = t.
Proof. reflexivity. Qed.

Lemma contains_char_app c s t :
  PyStr.contains_char c (s +:+ t)
  = (PyStr.contains_char c s || PyStr.contains_char c t)%bool.
Proof.
  induction s as [|a s IH]; [done|].
  rewrite app_cons. simpl. by destruct (decide (a = c)).
Qed.

Lemma contains_char_cons c a s :
  PyStr.contains_char c (String a s)
  = (bool_decide (a = c) || PyStr.contains_char c s)%bool.
Proof. simpl. by destruct (decide (a = c)); [rewrite bool_decide_true|rewrite bool_decide_false]. Qed.

Lemma remove_char_app c s t :
  PyStr.remove_char c (s +:+ t) = PyStr.remove_char c s +:+ PyStr.remove_char c t.
Proof.
  induction s as [|a s IH]; [done|].
  rewrite app_cons. simpl. destruct (decide (a = c)); [done|].
  by rewrite app_cons, IH.
Qed.

Lemma contains_char_remove c d s :
  c ≠ d →
  PyStr.contains_char c (PyStr.remove_char d s) = PyStr.contains_char c s.
Proof.
  intros Hne. induction s as [|a s IH]; [done|]. simpl.
  destruct (decide (a = d)) as [->|]; simpl.
  - by destruct (decide (d = c)); [congruence|].
  - by rewrite IH.
Qed.

Lemma upper_app s t : PyStr.upper (s +:+ t) = PyStr.upper s +:+ PyStr.upper t.
Proof.
  induction s as [|a s IH]; [done|].
  by rewrite app_cons; simpl; rewrite IH.
Qed.

Lemma upper_char_space c : PyStr.upper_char c = " "%char ↔ c = " "%char.
Proof. by destruct c as [[] [] [] [] [] [] [] []]. Qed.

Lemma upper_remove_spaces s :
  PyStr.upper (PyStr.remove_char " " s) = PyStr.remove_char " " (PyStr.upper s).
Proof.
  induction s as [|a s IH]; [done|]. simpl.
  destruct (decide (a = " "%char)) as [->|Ha].
  { rewrite IH. by destruct (decide (PyStr.upper_char " " = " "%char)). }
  destruct (decide (PyStr.upper_char a = " "%char)) as [Hu|_].
  - destruct Ha. by apply upper_char_space.
  - simpl. by rewrite IH.
Qed.

Lemma prefix_app s t : String.prefix s (s +:+ t) = true.
Proof.
  induction s as [|a s IH]; [by destruct t|].
  rewrite app_cons. simpl. by destruct (ascii_dec a a).
Qed.

Lemma contains_app s w t : PyStr.contains w (s +:+ w +:+ t) = true.
Proof.
  induction s as [|a s IH].
  - rewrite app_empty_l. destruct w as [|b w]; [by destruct t|].
    rewrite app_cons. unfold PyStr.contains; fold PyStr.contains.
    by rewrite <-app_cons, prefix_app.
  - rewrite app_cons. unfold PyStr.contains; fold PyStr.contains.
    rewrite IH. by destruct (String.prefix _ _).
Qed.

Lemma contains_first c w s :
  PyStr.contains (String c w) s = true → PyStr.contains_char c s = true.
Proof.
  induction s as [|a s IH]; [done|].
  unfold PyStr.contains; fold PyStr.contains. simpl String.prefix.
  destruct (ascii_dec c a) as [->|Hne].
  - intros _. simpl. by destruct (decide (a = a)).
  - intros H%IH. simpl. by destruct (decide (a = c)).
Qed.

Lemma contains_char_upper c s :
  PyStr.contains_char c (PyStr.upper s) = true →
  ∃ d, PyStr.upper_char d = c ∧ PyStr.contains_char d s = true.
Proof.
  induction s as [|a s IH]; [done|]. simpl.
  destruct (decide (PyStr.upper_char a = c)) as [<-|Hne].
  - intros _. exists a. split; [done|]. by destruct (decide (a = a)).
  - intros (d & Hd & Hin)%IH. exists d. split; [done|].
    by destruct (decide (a = d)).
Qed.

(** *** strip *)

Lemma contains_char_lstrip c s :
  PyStr.contains_char c (PyStr.lstrip s) = true → PyStr.contains_char c s = true.
Proof.
  induction s as [|a s IH]; [done|]. simpl PyStr.lstrip.
  destruct (PyStr.is_space a); [|done].
  intros H%IH. simpl. by destruct (decide (a = c)).
Qed.

Lemma contains_char_rstrip c s :
  PyStr.contains_char c (PyStr.rstrip s) = true → PyStr.contains_char c s = true.
Proof.
  induction s as [|a s IH]; [done|]. simpl PyStr.rstrip.
  rewrite (contains_char_cons c a s).
  destruct (PyStr.rstrip s) as [|b r] eqn:Hr.
  - destruct (PyStr.is_space a); [done|].
    rewrite contains_char_cons. intros H. apply orb_true_iff in H as [->|?]; done.
  - rewrite contains_char_cons. intros H.
    apply orb_true_iff in H as [->|H]; [done|]. rewrite IH; [|done].
    by rewrite orb_true_r.
Qed.

Lemma contains_char_strip c s :
  PyStr.contains_char c (PyStr.strip s) = true → PyStr.contains_char c s = true.
Proof. intros H. by apply contains_char_lstrip, contains_char_rstrip. Qed.

(** *** split *)

Lemma split_nonempty sep s : PyStr.split sep s ≠ [].
Proof.
  destruct s as [|a s]; [done|]. simpl.
  destruct (decide (a = sep)); [done|]. by destruct (PyStr.split sep s).
Qed.

Lemma split_single sep s p : PyStr.split sep s = [p] → s = p.
Proof.
  revert p. induction s as [|a s IH]; intros p; simpl.
  - by intros [= <-].
  - destruct (decide (a = sep)).
    + intros [= _ H]. by apply split_nonempty in H.
    + destruct (PyStr.split sep s) as [|q qs] eqn:Hq;
        [by apply split_nonempty in Hq|].
      intros [= <- ->]. by rewrite (IH q).
Qed.

(** A split in two gives back the string when joined by the separator. *)
Lemma split_pair sep s h m :
  PyStr.split sep s = [h; m] → s = h +:+ String sep m.
Proof.
  revert h. induction s as [|a s IH]; intros h; simpl; [done|].
  destruct (decide (a = sep)) as [->|].
  - intros [= <- H]. by rewrite (split_single _ _ _ H).
  - destruct (PyStr.split sep s) as [|q qs] eqn:Hq; [done|].
    intros [= <- ->]. by rewrite app_cons, <-(IH q).
Qed.

Lemma split1_pair sep s h m :
  PyStr.split1 sep s = [h; m] →
  s = h +:+ String sep m ∧ PyStr.contains_char sep h = false.
Proof.
  revert h. induction s as [|a s IH]; intros h; simpl; [done|].
  destruct (decide (a = sep)) as [->|].
  - by intros [= <- <-].
  - destruct (PyStr.split1 sep s) as [|q qs] eqn:Hq; [done|].
    intros [= <- ->]. destruct (IH q eq_refl) as [-> Hq'].
    split; [done|]. simpl. by destruct (decide (a = sep)).
Qed.

End string_facts.

(** ** Integer literals and the two sides of an interval *)

Section time_facts.
Implicit Types (s t : string) (c : ascii).

Lemma time_char_not_letter c :
  time_char c = true →
  PyStr.upper_char c ≠ "O"%char ∧ PyStr.upper_char c ≠ "T"%char.
Proof. by destruct c as [[] [] [] [] [] [] [] []]. Qed.

Lemma digit_val_nonneg c d : PyStr.digit_val c = Some d → 0 ≤ d.
Proof.
  unfold PyStr.digit_val. case_match; [|done]. intros [= <-].
  apply andb_true_iff in H as [H%Nat.leb_le _]. lia.
Qed.

Lemma int_digits_nonneg s acc b v :
  0 ≤ acc → PyStr.int_digits s acc b = Some v → 0 ≤ v.
Proof.
  revert acc b. induction s as [|a s IH]; intros acc b Hacc; simpl.
  - destruct b; [|done]. by intros [= <-].
  - destruct (PyStr.digit_val a) as [d|] eqn:Hd.
    + apply IH. apply digit_val_nonneg in Hd. lia.
    + case_match; [|done]. by apply IH.
Qed.

Lemma int_digits_chars s acc b v c :
  PyStr.int_digits s acc b = Some v →
  PyStr.contains_char c s = true → time_char c = true.
Proof.
  revert acc b. induction s as [|a s IH]; intros acc b; simpl; [done|].
  destruct (decide (a = c)) as [->|].
  - intros H _. unfold time_char. destruct (PyStr.digit_val c) eqn:Hd.
    + rewrite (bool_decide_true (is_Some (Some _))) by eauto.
      by rewrite orb_true_r.
    + case_match eqn:Hc; [|done].
      apply andb_true_iff in Hc as [->%bool_decide_eq_true _].
      by rewrite orb_true_r.
  - destruct (PyStr.digit_val a); [by apply IH|].
    case_match; [by apply IH|done].
Qed.

Lemma contains_char_lstrip_inv c s :
  PyStr.contains_char c s = true →
  PyStr.is_space c = true ∨ PyStr.contains_char c (PyStr.lstrip s) = true.
Proof.
  induction s as [|a s IH]; [done|]. simpl PyStr.lstrip.
  destruct (PyStr.is_space a) eqn:Ha; [|by right].
  simpl. destruct (decide (a = c)) as [<-|]; [by left|done].
Qed.

Lemma contains_char_rstrip_inv c s :
  PyStr.contains_char c s = true →
  PyStr.is_space c = true ∨ PyStr.contains_char c (PyStr.rstrip s) = true.
Proof.
  induction s as [|a s IH]; [done|]. simpl PyStr.rstrip.
  rewrite contains_char_cons. intros H.
  apply orb_true_iff in H as [<-%bool_decide_eq_true|H].
  - destruct (PyStr.rstrip s), (PyStr.is_space a) eqn:Ha; auto; right;
      rewrite contains_char_cons, bool_decide_true; done.
  - destruct (IH H) as [?|Hr]; [by left|right].
    destruct (PyStr.rstrip s); [done|].
    by rewrite contains_char_cons, Hr, orb_true_r.
Qed.

Lemma contains_char_strip_inv c s :
  PyStr.contains_char c s = true →
  PyStr.is_space c = true ∨ PyStr.contains_char c (PyStr.strip s) = true.
Proof.
  intros [?|H]%contains_char_lstrip_inv; [by left|].
  by apply contains_char_rstrip_inv.
Qed.

Lemma int_chars s v c :
  PyStr.int s = Some v → PyStr.contains_char c s = true → time_char c = true.
Proof.
  unfold PyStr.int. intros Hint [Hc|Hc]%contains_char_strip_inv.
  { unfold time_char. by rewrite Hc. }
  assert (∀ r w, PyStr.int_digits r 0 false = Some w →
                 PyStr.contains_char c r = true → time_char c = true) as Hd
    by (intros r w; apply int_digits_chars).
  destruct (PyStr.strip s) as [|a r] eqn:Hs; [done|].
  rewrite contains_char_cons in Hc.
  destruct (decide (a = "+"%char)) as [->|Hplus];
    [|destruct (decide (a = "-"%char)) as [->|Hminus]].
  - apply orb_true_iff in Hc as [<-%bool_decide_eq_true|Hc]; [done|]. eauto.
  - apply orb_true_iff in Hc as [<-%bool_decide_eq_true|Hc]; [done|].
    destruct (PyStr.int_digits r 0 false) eqn:Hr; [eauto|done].
  - assert (PyStr.int_digits (String a r) 0 false = Some v) as Hv.
    { revert Hint. destruct a as [[] [] [] [] [] [] [] []]; done. }
    eapply Hd; [done|]. by rewrite contains_char_cons.
Qed.

Lemma int_nonneg s v :
  PyStr.contains_char "-" s = false → PyStr.int s = Some v → 0 ≤ v.
Proof.
  unfold PyStr.int. intros Hno Hint.
  assert (PyStr.contains_char "-" (PyStr.strip s) = false) as Hs.
  { destruct (PyStr.contains_char "-" (PyStr.strip s)) eqn:E; [|done].
    apply contains_char_strip in E. congruence. }
  destruct (PyStr.strip s) as [|a r]; [done|].
  destruct (decide (a = "-"%char)) as [->|Hminus]; [done|].
  destruct (decide (a = "+"%char)) as [->|Hplus].
  - by eapply int_digits_nonneg.
  - assert (PyStr.int_digits (String a r) 0 false = Some v) as Hv.
    { revert Hint. destruct a as [[] [] [] [] [] [] [] []]; done. }
    by eapply int_digits_nonneg.
Qed.

(** What a successful [to_minutes] read. *)
Lemma to_minutes_Some t v :
  to_minutes t = Some v →
  ∃ h m hz mz, t = h +:+ String ":" m ∧ PyStr.int h = Some hz
               ∧ PyStr.int m = Some mz ∧ v = hz * 60 + mz.
Proof.
  unfold to_minutes.
  destruct (PyStr.split ":" t) as [|h [|m [|? ?]]] eqn:Hsplit; try done.
  apply split_pair in Hsplit. intros H.
  destruct (PyStr.int h) as [hz|] eqn:Hh; [|done].
  destruct (PyStr.int m) as [mz|] eqn:Hm; [|done].
  simpl in H. injection H as <-. by exists h, m, hz, mz.
Qed.

Lemma to_minutes_chars t v c :
  to_minutes t = Some v → PyStr.contains_char c t = true → time_char c = true.
Proof.
  intros (h & m & hz & mz & -> & Hh & Hm & _)%to_minutes_Some.
  rewrite contains_char_app, contains_char_cons.
  intros [Hc|[<-%bool_decide_eq_true|Hc]%orb_true_iff]%orb_true_iff;
    [eauto using int_chars|done|eauto using int_chars].
Qed.

Lemma to_minutes_nonneg t v :
  PyStr.contains_char "-" t = false → to_minutes t = Some v → 0 ≤ v.
Proof.
  intros Hno (h & m & hz & mz & -> & Hh & Hm & ->)%to_minutes_Some.
  rewrite contains_char_app, contains_char_cons in Hno.
  apply orb_false_iff in Hno as [Hnh [_ Hnm]%orb_false_iff].
  apply int_nonneg in Hh, Hm; [lia|done..].
Qed.

(** What a successful [try] block read: the text before the first hyphen
    and the text after it. *)
Lemma split_times_Some t start end_ :
  split_times t = Some (start, end_) →
  ∃ start_str end_str,
    t = start_str +:+ String "-" end_str
    ∧ PyStr.contains_char "-" start_str = false
    ∧ to_minutes start_str = Some start ∧ to_minutes end_str = Some end_.
Proof.
  unfold split_times.
  destruct (PyStr.split1 "-" t) as [|a [|b [|? ?]]] eqn:Hsplit; try done.
  apply split1_pair in Hsplit as [-> Ha]. intros H.
  destruct (to_minutes a) as [x|] eqn:Hx; [|done].
  destruct (to_minutes b) as [y|] eqn:Hy; [|done].
  simpl in H. injection H as <- <-. by exists a, b.
Qed.

Lemma split_times_dash t x :
  split_times t = Some x → PyStr.contains_char "-" t = true.
Proof.
  destruct x as [a b]. intros (p & q & -> & _)%split_times_Some.
  by rewrite contains_char_app, contains_char_cons, orb_true_r.
Qed.

Lemma split_times_start_nonneg t start end_ :
  split_times t = Some (start, end_) → 0 ≤ start.
Proof.
  intros (p & q & -> & Hp & Hs & _)%split_times_Some.
  by eapply to_minutes_nonneg.
Qed.

Lemma split_times_chars t x c :
  split_times t = Some x → PyStr.contains_char c t = true → time_char c = true.
Proof.
  destruct x as [a b]. intros (p & q & -> & _ & Hp & Hq)%split_times_Some.
  rewrite contains_char_app, contains_char_cons.
  intros [Hc|[<-%bool_decide_eq_true|Hc]%orb_true_iff]%orb_true_iff;
    [eauto using to_minutes_chars|done|eauto using to_minutes_chars].
Qed.

(** Text whose two sides parse as times mentions neither ONLINE nor TBA. *)
Lemma split_times_time_entry t x :
  split_times t = Some x →
  existsb (λ w, PyStr.contains w (PyStr.upper t)) ["ONLINE"; "TBA"] = false.
Proof.
  intros Ht. simpl. rewrite orb_false_r. apply orb_false_iff.
  split; apply not_true_is_false; intros Hc;
    destruct (contains_char_upper _ _ (contains_first _ _ _ Hc)) as (d & Hd & Hin);
    destruct (time_char_not_letter d (split_times_chars _ _ _ Ht Hin));
    congruence.
Qed.

End time_facts.

(** ** The smart time parser *)

Section parser_facts.
Implicit Types (s : string) (start : Z).

Lemma too_long_message_head d : ∃ r, too_long_message d = String "D" r.
Proof. by eexists. Qed.

Lemma too_long_message_nonempty d : too_long_message d ≠ "".
Proof. by destruct (too_long_message_head d) as [r ->]. Qed.

(** The three outcomes of the two wraparound steps. *)
Lemma wraparound_cases start end_ :
  (start < end_ ∧ wraparound start end_ = (end_, false))
  ∨ (end_ ≤ start < end_ + 720 ∧ wraparound start end_ = (end_ + 720, true))
  ∨ (end_ + 720 ≤ start ∧ wraparound start end_ = (end_ + 2160, true)).
Proof.
  unfold wraparound.
  destruct (Z.leb_spec end_ start); [|left; split; [lia|]].
  - destruct (Z.leb_spec (end_ + 720) start); [right; right|right; left];
      (split; [lia|]); f_equal; lia.
  - by destruct (Z.leb_spec end_ start); [lia|].
Qed.

(** When both sides parse, the parser reaches the wraparound steps. *)
Lemma parse_interval_smart_times s start end_ :
  split_times (PyStr.remove_char " " s) = Some (start, end_) →
  parse_interval_smart (Str s)
  = let '(end', fixed) := wraparound start end_ in
    if end' - start >? 300
    then (Some start, Some end', false, too_long_message (end' - start))
    else (Some start, Some end', fixed, "").
Proof.
  intros Ht. unfold parse_interval_smart.
  by rewrite (split_times_dash _ _ Ht), (split_times_time_entry _ _ Ht), Ht.
Qed.

(** When they do not, start and end are null and the reason is one of the
    three literal ones. *)
Lemma parse_interval_smart_no_times s :
  split_times (PyStr.remove_char " " s) = None →
  ∃ msg, parse_interval_smart (Str s) = (None, None, false, msg)
         ∧ msg ∈ ["Missing dash"; "Non-time entry"; "Bad time format"].
Proof.
  intros Ht. unfold parse_interval_smart. rewrite Ht.
  destruct (PyStr.contains_char "-" _); simpl negb; cbv iota;
    [|eexists; split; [done|set_solver]].
  destruct (existsb _ _); eexists; (split; [done|set_solver]).
Qed.

End parser_facts.

(** C1, as stated, fails: the text "37:00-0:00" is accepted with
    start 2220 and end 2160, so the end is not after the start. *)
Lemma accepted_interval_ordered_counterexample :
  ¬ (∀ s start end_ fixed,
       parse_interval_smart (Str s) = (Some start, Some end_, fixed, "") →
       0 ≤ start ∧ start < end_ ∧ end_ - start ≤ 300).
Proof.
  intros H. destruct (H "37:00-0:00" 2220 2160 true) as (_ & ? & _); [done|lia].
Qed.

(** C1 (amended).  Whenever the parser accepts (empty reason), start and end
    are numbers, the start is the parsed start and is not negative, the
    duration is at most 300, and the end is after the start exactly when the
    end as written lies less than 2160 minutes before the start as written
    (always so when both written times are within one day). *)
Theorem accepted_interval_bounds s st en fixed :
  parse_interval_smart (Str s) = (st, en, fixed, "") →
  ∃ start end_ written_end,
    st = Some start ∧ en = Some end_
    ∧ split_times (PyStr.remove_char " " s) = Some (start, written_end)
    ∧ 0 ≤ start ∧ end_ - start ≤ 300
    ∧ (start < end_ ↔ start - written_end < 2160).
Proof.
  destruct (split_times (PyStr.remove_char " " s)) as [[start e0]|] eqn:Ht.
  - rewrite (parse_interval_smart_times _ _ _ Ht).
    pose proof (split_times_start_nonneg _ _ _ Ht) as Hstart.
    destruct (wraparound_cases start e0) as [[Hc ->]|[[Hc ->]|[Hc ->]]];
      cbv beta iota;
      (destruct (_ >? 300) eqn:Hd;
       [intros [= _ _ _ Hmsg]; by apply too_long_message_nonempty in Hmsg
       |intros [= <- <- <-]]);
      rewrite Z.gtb_ltb in Hd; apply Z.ltb_ge in Hd;
      eexists start, _, e0; repeat split; try done; lia.
  - destruct (parse_interval_smart_no_times _ Ht) as (msg & -> & Hmsg).
    intros [= <- <- <- ->].
    rewrite !elem_of_cons, elem_of_nil in Hmsg.
    destruct Hmsg as [?|[?|[?|[]]]]; discriminate.
Qed.

Lemma accepted_interval_bounds_witness :
  ∃ start end_ written_end,
    Some 540 = Some start ∧ Some 600 = Some end_
    ∧ split_times (PyStr.remove_char " " "9:00 - 10:00") = Some (start, written_end)
    ∧ 0 ≤ start ∧ end_ - start ≤ 300
    ∧ (start < end_ ↔ start - written_end < 2160).
Proof.
  apply (accepted_interval_bounds "9:00 - 10:00" (Some 540) (Some 600) false).
  reflexivity.
Defined.

(** C2, as stated, fails: the text "ONLINE" holds no hyphen and is rejected
    with "Missing dash", not with "Non-time entry". *)
Lemma non_time_entry_counterexample :
  ¬ (∀ s, mentions_non_time s →
          (parse_interval_smart (Str s)).2 = "Non-time entry").
Proof.
  intros H. specialize (H "ONLINE"). simpl in H.
  discriminate H. exists "", "ONLINE", "". by split; [|left].
Qed.

(** C2 (amended).  A text that contains ONLINE or TBA in any letter case at
    any position is rejected with "Non-time entry" whenever it holds a
    hyphen, whether or not its sides are well-formed times (so the check
    takes precedence over "Bad time format"); without a hyphen it is
    rejected with "Missing dash", which takes precedence. *)
Theorem non_time_entry_rejected s :
  mentions_non_time s →
  parse_interval_smart (Str s)
  = (None, None, false,
     if PyStr.contains_char "-" s then "Non-time entry" else "Missing dash").
Proof.
  intros (before & w & after & -> & Hw). unfold parse_interval_smart.
  rewrite contains_char_remove by done.
  destruct (PyStr.contains_char "-" _); [|done]. simpl negb. cbv iota.
  rewrite upper_remove_spaces, !upper_app, !remove_char_app.
  assert (PyStr.remove_char " " (PyStr.upper w) = PyStr.upper w) as ->
    by (by destruct Hw as [-> | ->]).
  simpl existsb. destruct Hw as [-> | ->]; rewrite contains_app; [done|].
  by destruct (PyStr.contains "ONLINE" _).
Qed.

Lemma non_time_entry_rejected_witness :
  parse_interval_smart (Str "9:00-10:00 (Online)")
  = (None, None, false,
     if PyStr.contains_char "-" "9:00-10:00 (Online)"
     then "Non-time entry" else "Missing dash").
Proof.
  apply (non_time_entry_rejected "9:00-10:00 (Online)").
  exists "9:00-10:00 (", "Online", ")". split; [reflexivity|left; reflexivity].
Defined.



(** C10.  An outcome rejected with "Duration too long (N min)" carries the
    start and the (possibly corrected) end as numbers, N being their
    difference, and its [fixed] flag is false whatever was added to the end;
    every other rejection carries null start and end. *)
Theorem too_long_keeps_times s st en fixed msg :
  parse_interval_smart (Str s) = (st, en, fixed, msg) →
  (is_too_long msg →
     fixed = false
     ∧ ∃ start written_end added,
         split_times (PyStr.remove_char " " s) = Some (start, written_end)
         ∧ st = Some start ∧ en = Some (written_end + added)
         ∧ (added = 0 ∨ added = 720 ∨ added = 2160)
         ∧ msg = too_long_message (written_end + added - start))
  ∧ (msg ≠ "" → ¬ is_too_long msg → st = None ∧ en = None).
Proof.
  destruct (split_times (PyStr.remove_char " " s)) as [[start e0]|] eqn:Ht.
  - rewrite (parse_interval_smart_times _ _ _ Ht).
    assert (∀ e f added, e = e0 + added → (added = 0 ∨ added = 720 ∨ added = 2160) →
      (if e - start >? 300
       then (Some start, Some e, false, too_long_message (e - start))
       else (Some start, Some e, f, "")) = (st, en, fixed, msg) →
      (is_too_long msg →
         fixed = false
         ∧ ∃ start' written_end added,
             Some (start, e0) = Some (start', written_end)
             ∧ st = Some start' ∧ en = Some (written_end + added)
             ∧ (added = 0 ∨ added = 720 ∨ added = 2160)
             ∧ msg = too_long_message (written_end + added - start'))
      ∧ (msg ≠ "" → ¬ is_too_long msg → st = None ∧ en = None)) as Hfinish.
    { intros e f added -> Hadded. destruct (_ >? 300).
      - intros [= <- <- <- <-]. split.
        + intros _. split; [done|]. by exists start, e0, added.
        + intros _ []. by eexists.
      - intros [= <- <- <- <-]. split; [|done].
        intros [n Hn]. symmetry in Hn. by apply too_long_message_nonempty in Hn. }
    destruct (wraparound_cases start e0) as [[Hc ->]|[[Hc ->]|[Hc ->]]];
      cbv beta iota.
    + apply (Hfinish _ _ 0); [lia|auto].
    + apply (Hfinish _ _ 720); auto.
    + apply (Hfinish _ _ 2160); auto.
  - destruct (parse_interval_smart_no_times _ Ht) as (m & -> & Hm).
    intros [= <- <- <- <-]. split; [|done].
    intros [n Hn]. destruct (too_long_message_head n) as [r Hr].
    rewrite Hn, Hr, !elem_of_cons, elem_of_nil in Hm.
    destruct Hm as [?|[?|[?|[]]]]; discriminate.
Qed.

Lemma too_long_keeps_times_witness :
  (is_too_long (too_long_message 660) →
     false = false
     ∧ ∃ start written_end added,
         split_times (PyStr.remove_char " " "9:00-8:00") = Some (start, written_end)
         ∧ Some 540 = Some start ∧ Some 1200 = Some (written_end + added)
         ∧ (added = 0 ∨ added = 720 ∨ added = 2160)
         ∧ too_long_message 660 = too_long_message (written_end + added - start))
  ∧ (too_long_message 660 ≠ "" → ¬ is_too_long (too_long_message 660) →
     Some 540 = None ∧ Some 1200 = None).
Proof.
  apply (too_long_keeps_times "9:00-8:00" (Some 540) (Some 1200) false).
  vm_compute. reflexivity.
Defined.

(** The flag is false although 720, respectively 2160, was added. *)
Example too_long_after_720 :
  parse_interval_smart (Str "9:00-8:00")
  = (Some 540, Some (480 + 720), false, "Duration too long (660 min)").
Proof. vm_compute. reflexivity. Qed.

Example too_long_after_2160 :
  parse_interval_smart (Str "25:00-0:00")
  = (Some 1500, Some (0 + 2160), false, "Duration too long (660 min)").
Proof. vm_compute. reflexivity. Qed.

Section decoder_facts.

Lemma string_length_app (s t : string) :
  String.length (s +:+ t) = (String.length s + String.length t)%nat.
Proof. induction s as [|a s IH]; [done|]. rewrite app_cons. simpl. by rewrite IH. Qed.

Lemma string_app_assoc (s t u : string) : (s +:+ t) +:+ u = s +:+ t +:+ u.
Proof. induction s as [|a s IH]; [done|]. by rewrite !app_cons, IH. Qed.

Lemma substring_skip (pre rest : string) (n : nat) :
  String.substring (String.length pre) n (pre +:+ rest) = String.substring 0 n rest.
Proof. induction pre as [|a pre IH]; [done|]. rewrite app_cons. simpl. apply IH. Qed.

Lemma slice_skip (pre rest : string) (n : nat) :
  slice (pre +:+ rest) (String.length pre) (String.length pre + n)
  = String.substring 0 n rest.
Proof.
  unfold slice. replace (String.length pre + n - String.length pre)%nat with n by lia.
  apply substring_skip.
Qed.

(** The index loop reads the tokens of the greedy scan; the fuel
    [len(code)] is never exhausted. *)
Lemma tokenize_loop_tokens fuel (pre rest : string) acc :
  (String.length rest ≤ fuel)%nat →
  tokenize_loop fuel (pre +:+ rest) (String.length pre) acc
  = Some (acc ++ DecoderSpec.tokens rest).
Proof.
  revert pre rest acc.
  induction fuel as [|fuel IH]; intros pre rest acc Hfuel.
  - destruct rest; [|simpl in Hfuel; lia]. simpl tokenize_loop.
    rewrite string_length_app, Nat.add_0_r, Nat.ltb_irrefl. simpl.
    by rewrite app_nil_r.
  - unfold tokenize_loop; fold tokenize_loop.
    rewrite string_length_app.
    destruct rest as [|a rest].
    { simpl. rewrite Nat.add_0_r, Nat.ltb_irrefl. by rewrite app_nil_r. }
    replace (String.length pre <? _)%nat with true
      by (symmetry; apply Nat.ltb_lt; simpl; lia).
    rewrite !slice_skip.
    assert (pre +:+ String a rest = (pre +:+ String a "") +:+ rest) as Hone
      by (by rewrite string_app_assoc).
    assert ((String.length pre + 1)%nat = String.length (pre +:+ String a "")) as Hi1
      by (rewrite string_length_app; simpl; lia).
    destruct rest as [|b rest].
    + replace (_ <=? _)%nat with false by (symmetry; apply Nat.leb_gt; simpl; lia).
      simpl andb. cbv iota. rewrite Hone, Hi1, IH by (simpl; lia).
      by rewrite <-app_assoc.
    + replace (_ <=? _)%nat with true by (symmetry; apply Nat.leb_le; simpl; lia).
      simpl andb. simpl String.substring. simpl DecoderSpec.tokens.
      replace (String.substring 0 0 rest) with "" by (by destruct rest).
      destruct (bool_decide _).
      * assert (pre +:+ String a (String b rest)
                = (pre +:+ String a (String b "")) +:+ rest) as ->
          by (by rewrite string_app_assoc).
        assert ((String.length pre + 2)%nat
                = String.length (pre +:+ String a (String b ""))) as ->
          by (rewrite string_length_app; simpl; lia).
        rewrite IH by (simpl in Hfuel; lia). by rewrite <-app_assoc.
      * rewrite Hone, Hi1, IH by (simpl in *; lia). by rewrite <-app_assoc.
Qed.

Lemma DAY_TOKEN_MAP_weekday (t : string) :
  DAY_TOKEN_MAP !! t = DecoderSpec.weekday t.
Proof.
  unfold DAY_TOKEN_MAP, DecoderSpec.weekday.
  repeat (rewrite lookup_insert; destruct (decide (_ = t)) as [<-|?];
          [done|rewrite decide_False by done]).
  rewrite lookup_singleton. by  destruct (decide (_ = t)) as [<-|?];
    [|rewrite decide_False by done].
Qed.

Context {A : Type} `{EqDecision A}.
Implicit Types (l seen : list A).

Lemma keep_first_go l seen :
  fold_left (λ seen x, if decide (x ∈ seen) then seen else seen ++ [x]) l seen
  = seen ++ filter (λ y, y ∉ seen) (DecoderSpec.first_occurrences l).
Proof.
  revert seen. induction l as [|x l IH]; intros seen; simpl.
  - by rewrite filter_nil, app_nil_r.
  - rewrite IH. destruct (decide (x ∈ seen)) as [Hx|Hx].
    + rewrite filter_cons_False by auto. rewrite list_filter_filter.
      f_equal. apply list_filter_iff. intros y. split; [|by intros [? _]].
      intros Hy. split; [done|]. by intros ->.
    + rewrite filter_cons_True by done. rewrite list_filter_filter.
      rewrite <-app_assoc. simpl. do 2 f_equal.
      apply list_filter_iff. intros y. cbv beta.
      rewrite elem_of_app, list_elem_of_singleton. tauto.
Qed.

Lemma keep_first_first_occurrences l :
  keep_first l = DecoderSpec.first_occurrences l.
Proof.
  unfold keep_first. rewrite keep_first_go. simpl.
  induction (DecoderSpec.first_occurrences l) as [|x k IHk]; [done|].
  rewrite filter_cons_True by apply not_elem_of_nil. by rewrite IHk.
Qed.

Lemma elem_of_first_occurrences l x :
  x ∈ DecoderSpec.first_occurrences l ↔ x ∈ l.
Proof.
  induction l as [|y l IH]; [done|]. simpl.
  rewrite !elem_of_cons, list_elem_of_filter, IH.
  destruct (decide (x = y)); tauto.
Qed.

Lemma NoDup_first_occurrences l : NoDup (DecoderSpec.first_occurrences l).
Proof.
  induction l as [|y l IH]; simpl; [constructor|].
  apply NoDup_cons. split; [|by apply NoDup_filter].
  rewrite list_elem_of_filter. tauto.
Qed.

End decoder_facts.

(** C5.  The decoder is the greedy scan of the trimmed code followed by the
    canonical mapping (unmapped tokens dropped) and the removal of repeated
    weekdays in first-occurrence order; on the listed codes it gives the
    listed weekdays, and the empty string and a non-text value give the
    empty list. *)
Theorem decode_days_greedy :
  (∀ code, decode_days (Str code) = DecoderSpec.decode code)
  ∧ decode_days (Str "MTThF") = ["Mon"; "Tue"; "Thu"; "Fri"]
  ∧ decode_days (Str "StSn") = ["Sat"; "Sun"]
  ∧ decode_days (Str "MWM") = ["Mon"; "Wed"]
  ∧ decode_days (Str "") = []
  ∧ decode_days NaN = [].
Proof.
  split; [|by vm_compute].
  intros code. unfold decode_days, DecoderSpec.decode.
  pose proof (tokenize_loop_tokens (String.length (PyStr.strip code)) ""
                (PyStr.strip code) [] (Nat.le_refl _)) as Hloop.
  rewrite app_empty_l in Hloop. simpl in Hloop. rewrite Hloop.
  unfold dict_fromkeys. rewrite keep_first_first_occurrences. f_equal.
  apply list_omap_ext, Forall2_same_length_lookup. split; [done|].
  intros i x y Hx Hy. rewrite Hx in Hy. injection Hy as <-.
  apply DAY_TOKEN_MAP_weekday.
Qed.

(** ** Preprocessing *)

(** ** Preprocessing *)

Section preprocess_facts.


Lemma normalize_row_Hall i raw :
  Hall (normalize_row i raw) = fillna "UNKNOWN" (astype_str (cell "Hall" raw)).
Proof.
  unfold normalize_row, Hall. destruct (parse_interval_smart _) as [[[??]?]?].
  unfold cell. simpl. by rewrite lookup_insert_ne, lookup_insert_eq.
Qed.






End preprocess_facts.



(** C7.  When one of the columns Days, Class_Times, Hall is absent, the
    function shows the single configuration message and returns two empty
    frames, whatever the rows hold: no row is parsed and no per-row reason
    is produced. *)
Theorem preprocess_data_missing_column df :
  ¬ has_required_columns df →
  preprocess_data df = ([missing_columns_message], ([], [])).
Proof.
  intros Hmissing. unfold preprocess_data.
  destruct (bool_decide ("Days" ∉ columns df)) eqn:HD; [done|].
  destruct (bool_decide ("Class_Times" ∉ columns df)) eqn:HC; [done|].
  destruct (bool_decide ("Hall" ∉ columns df)) eqn:HH; [done|].
  apply bool_decide_eq_false, dec_stable in HD, HC, HH.
  by destruct Hmissing.
Qed.

Lemma preprocess_data_missing_column_witness :
  preprocess_data sample_without_hall = ([missing_columns_message], ([], [])).
Proof.
  apply (preprocess_data_missing_column sample_without_hall).
  unfold has_required_columns, sample_without_hall. simpl.
  rewrite !elem_of_cons, !elem_of_nil.
  intros (_ & _ & [H|[H|[H|[]]]]); discriminate H.
Defined.

(** A missing hall is turned into the text "nan" by [astype(str)] before
    [fillna] runs, so the sentinel is never written. *)
Lemma missing_hall_is_nan i raw :
  cell "Hall" raw = NaN → Hall (normalize_row i raw) = Str "nan".
Proof. intros Hraw. by rewrite normalize_row_Hall, Hraw. Qed.





(** ** The availability checker *)



(** The boundary of the half-open interval, on the first sample row
    (Mon/Wed/Fri, 9:00 to 10:00): occupying at hour 9, not at hour 10. *)
Example half_open_boundary :
  let r := normalize_row 0 {[ "Days" := Str "MWF";
                              "Class_Times" := Str "9:00-10:00";
                              "Hall" := Str "A1" ]} in
  (Start_Min r, End_Min r) = (Some 540, Some 600)
  ∧ (get_availability [r] "Mon" 9).2 = [r]
  ∧ (get_availability [r] "Mon" 10).2 = []
  ∧ (get_availability [r] "Mon" 10).1 = [Str "A1"]
  ∧ (get_availability [r] "Mon" 9).1 = [].
Proof. vm_compute. by repeat split. Qed.

(** * Further properties of the time parser *)

Section parser_outcomes.

Lemma remove_char_idemp c (s : string) :
  PyStr.remove_char c (PyStr.remove_char c s) = PyStr.remove_char c s.
Proof.
  induction s as [|a s IH]; [done|]. simpl.
  destruct (decide (a = c)) as [->|Ha]; [done|].
  simpl. by rewrite decide_False, IH by done.
Qed.

Lemma too_long_message_not_missing_dash n : too_long_message n ≠ "Missing dash".
Proof. by destruct (too_long_message_head n) as [r ->]. Qed.

End parser_outcomes.



(** X2.  Spaces play no part: the parser gives the same result on a text
    and on the text with all its spaces removed, so two texts that differ
    only in spaces are parsed alike. *)
Theorem parse_interval_smart_spaces (s : string) :
  parse_interval_smart (Str (PyStr.remove_char " " s))
  = parse_interval_smart (Str s).
Proof. unfold parse_interval_smart. by rewrite remove_char_idemp. Qed.

(** X3.  The reason is "Missing dash" exactly when the text holds no
    hyphen. *)
Theorem missing_dash_iff (s : string) :
  (parse_interval_smart (Str s)).2 = "Missing dash"
  ↔ PyStr.contains_char "-" s = false.
Proof.
  unfold parse_interval_smart. rewrite contains_char_remove by done.
  destruct (PyStr.contains_char "-" s); simpl negb; cbv iota; [|done].
  split; [|done].
  destruct (existsb _ _); [done|].
  destruct (split_times _) as [[start e0]|]; [|done].
  destruct (wraparound start e0) as [e fixed].
  destruct (_ >? 300); [|done]. simpl. intros H.
  by apply too_long_message_not_missing_dash in H.
Qed.

(** ** Reading back printed numbers *)

Section round_trip.
Implicit Types (s t : string) (c sep : ascii).

Lemma split_no_sep sep s :
  PyStr.contains_char sep s = false → PyStr.split sep s = [s].
Proof.
  induction s as [|a s IH]; [done|]. simpl.
  destruct (decide (a = sep)); [done|]. by intros ->%IH.
Qed.

Lemma split_app_sep sep s t :
  PyStr.contains_char sep s = false →
  PyStr.split sep (s +:+ String sep t) = s :: PyStr.split sep t.
Proof.
  induction s as [|a s IH]; rewrite ?app_cons; simpl.
  - intros _. by rewrite decide_True.
  - destruct (decide (a = sep)); [done|]. by intros ->%IH.
Qed.


















End round_trip.

Section colon_facts.
Implicit Types (s t : string) (c : ascii).

Lemma int_digits_digit_or_underscore s acc b v c :
  PyStr.int_digits s acc b = Some v →
  PyStr.contains_char c s = true →
  is_Some (PyStr.digit_val c) ∨ c = "_"%char.
Proof.
  revert acc b. induction s as [|a s IH]; intros acc b; simpl; [done|].
  destruct (decide (a = c)) as [->|].
  - intros H _. destruct (PyStr.digit_val c) eqn:Hd; [left; by eexists|].
    destruct (bool_decide (c = "_"%char)) eqn:Hc; [|done].
    right. by apply bool_decide_eq_true in Hc.
  - destruct (PyStr.digit_val a); [by apply IH|].
    destruct (_ && _)%bool; [by apply IH|done].
Qed.

Lemma int_digits_no_colon s acc b v :
  PyStr.int_digits s acc b = Some v → PyStr.contains_char ":" s = false.
Proof.
  intros H. apply not_true_is_false. intros Hc.
  by destruct (int_digits_digit_or_underscore _ _ _ _ _ H Hc) as [[? [=]]|[=]].
Qed.

Lemma int_no_colon s v :
  PyStr.int s = Some v → PyStr.contains_char ":" s = false.
Proof.
  unfold PyStr.int. intros Hint. apply not_true_is_false.
  intros [Hc|Hc]%contains_char_strip_inv; [done|].
  destruct (PyStr.strip s) as [|a r]; [done|].
  rewrite contains_char_cons in Hc.
  destruct (decide (a = "+"%char)) as [->|Hplus];
    [|destruct (decide (a = "-"%char)) as [->|Hminus]].
  - apply int_digits_no_colon in Hint. simpl in Hc. congruence.
  - destruct (PyStr.int_digits r 0 false) eqn:Hr; [|done].
    apply int_digits_no_colon in Hr. simpl in Hc. congruence.
  - assert (PyStr.int_digits (String a r) 0 false = Some v) as Hv.
    { revert Hint. destruct a as [[] [] [] [] [] [] [] []]; done. }
    apply int_digits_no_colon in Hv. rewrite contains_char_cons in Hv. congruence.
Qed.




End colon_facts.

(** X4.  [to_minutes] succeeds exactly on the texts made of an integer
    literal, one colon and an integer literal (no second colon can occur,
    since an integer literal holds none), and then returns sixty times the
    first number plus the second; hours and minutes are not range-checked. *)
Theorem to_minutes_one_colon (t : string) (v : Z) :
  to_minutes t = Some v
  ↔ ∃ h m hz mz,
      t = h +:+ String ":" m
      ∧ PyStr.contains_char ":" h = false ∧ PyStr.contains_char ":" m = false
      ∧ PyStr.int h = Some hz ∧ PyStr.int m = Some mz ∧ v = hz * 60 + mz.
Proof.
  split.
  - intros (h & m & hz & mz & -> & Hh & Hm & ->)%to_minutes_Some.
    exists h, m, hz, mz. eauto 10 using int_no_colon.
  - intros (h & m & hz & mz & -> & Hnh & Hnm & Hh & Hm & ->).
    unfold to_minutes. rewrite split_app_sep, split_no_sep by done.
    by rewrite Hh, Hm.
Qed.



(** * Further properties of the day decoder *)

Section decoder_more.
Implicit Types (s code : string) (c : ascii).

Lemma tokens_induction (P : string → list string → Prop) :
  P "" [] →
  (∀ a, P (String a "") [String a ""]) →
  (∀ a b rest,
     String a (String b "") ∈ ["Th"; "St"; "Sn"] →
     P rest (DecoderSpec.tokens rest) →
     P (String a (String b rest))
       (String a (String b "") :: DecoderSpec.tokens rest)) →
  (∀ a b rest,
     String a (String b "") ∉ ["Th"; "St"; "Sn"] →
     P (String b rest) (DecoderSpec.tokens (String b rest)) →
     P (String a (String b rest))
       (String a "" :: DecoderSpec.tokens (String b rest))) →
  ∀ s, P s (DecoderSpec.tokens s).
Proof.
  intros Hnil Hone Htwo Hskip s.
  assert (∀ n s, (String.length s ≤ n)%nat → P s (DecoderSpec.tokens s)) as Hall;
    [|by apply (Hall (String.length s))].
  clear s. induction n as [|n IH]; intros s Hlen.
  { destruct s; [done|simpl in Hlen; lia]. }
  destruct s as [|a [|b rest]]; [done..|].
  simpl DecoderSpec.tokens. simpl in Hlen.
  destruct (bool_decide _) eqn:Hdi.
  - apply bool_decide_eq_true in Hdi. apply Htwo; [done|]. apply IH. lia.
  - apply bool_decide_eq_false in Hdi. apply Hskip; [done|]. apply IH. simpl. lia.
Qed.

Lemma tokenize_loop_run code :
  tokenize_loop (String.length code) code 0 [] = Some (DecoderSpec.tokens code).
Proof. apply (tokenize_loop_tokens _ "" code [] (Nat.le_refl _)). Qed.

Lemma tokens_concat s : foldr String.app "" (DecoderSpec.tokens s) = s.
Proof.
  apply (tokens_induction (λ s toks, foldr String.app "" toks = s));
    [done|done|..]; intros a b rest _;
    generalize (DecoderSpec.tokens rest), (DecoderSpec.tokens (String b rest));
    intros toks toks' IH; simpl foldr; rewrite IH; reflexivity.
Qed.

Lemma tokens_sizes s :
  Forall (λ t, String.length t = 1%nat ∨ t ∈ ["Th"; "St"; "Sn"])
         (DecoderSpec.tokens s).
Proof.
  apply (tokens_induction (λ _ toks,
    Forall (λ t, String.length t = 1%nat ∨ t ∈ ["Th"; "St"; "Sn"]) toks));
    [constructor|repeat constructor|..]; intros a b rest Hdi IH;
    (constructor; [|done]); [by right|by left].
Qed.

(** Every token starts with a character of the code. *)
Lemma tokens_heads s t :
  t ∈ DecoderSpec.tokens s →
  ∃ c r, t = String c r ∧ PyStr.contains_char c s = true.
Proof.
  apply (tokens_induction (λ s toks,
    t ∈ toks → ∃ c r, t = String c r ∧ PyStr.contains_char c s = true)).
  - by intros ?%elem_of_nil.
  - intros a ->%list_elem_of_singleton. exists a, "". split; [done|].
    simpl. by rewrite decide_True.
  - intros a b rest _ IH [->|Hin]%elem_of_cons.
    + eexists _, _. split; [done|]. simpl. by rewrite decide_True.
    + destruct (IH Hin) as (c & r & -> & Hc). exists c, r. split; [done|].
      by rewrite !contains_char_cons, Hc, !orb_true_r.
  - intros a b rest _ IH [->|Hin]%elem_of_cons.
    + eexists _, _. split; [done|]. simpl. by rewrite decide_True.
    + destruct (IH Hin) as (c & r & -> & Hc). exists c, r. split; [done|].
      by rewrite contains_char_cons, Hc, orb_true_r.
Qed.

Lemma weekday_Some t d :
  DecoderSpec.weekday t = Some d →
  d ∈ ["Mon"; "Tue"; "Wed"; "Thu"; "Fri"; "Sat"; "Sun"]
  ∧ ∃ c r, t = String c r ∧ c ∈ ["M"; "T"; "W"; "F"; "S"]%char.
Proof.
  unfold DecoderSpec.weekday.
  repeat (destruct (decide (t = _)) as [->|?];
          [intros [= <-]; split;
             [rewrite !elem_of_cons; tauto
             |eexists _, _; split; [done|rewrite !elem_of_cons; tauto]]|]).
  done.
Qed.

Lemma decode_days_decode code :
  decode_days (Str code) = DecoderSpec.decode code.
Proof.
  unfold decode_days, DecoderSpec.decode. rewrite tokenize_loop_run.
  unfold dict_fromkeys. rewrite keep_first_first_occurrences. f_equal.
  apply list_omap_ext, Forall2_same_length_lookup. split; [done|].
  intros i x y Hx Hy. rewrite Hx in Hy. injection Hy as <-.
  apply DAY_TOKEN_MAP_weekday.
Qed.

Lemma elem_of_decode d code :
  d ∈ DecoderSpec.decode code
  ↔ ∃ t, t ∈ DecoderSpec.tokens (PyStr.strip code)
         ∧ DecoderSpec.weekday t = Some d.
Proof.
  unfold DecoderSpec.decode.
  by rewrite elem_of_first_occurrences, list_elem_of_omap.
Qed.

Lemma rstrip_cons c s :
  PyStr.rstrip (String c s)
  = match PyStr.rstrip s with
    | "" => if PyStr.is_space c then "" else String c ""
    | r => String c r
    end.
Proof. done. Qed.

Lemma rstrip_idemp s : PyStr.rstrip (PyStr.rstrip s) = PyStr.rstrip s.
Proof.
  induction s as [|a s IH]; [done|]. rewrite rstrip_cons.
  destruct (PyStr.rstrip s) as [|b r] eqn:Hr.
  - destruct (PyStr.is_space a) eqn:Ha; [done|]. by rewrite rstrip_cons, Ha.
  - by rewrite rstrip_cons, IH.
Qed.

Lemma lstrip_rstrip_lstrip s :
  PyStr.lstrip (PyStr.rstrip (PyStr.lstrip s)) = PyStr.rstrip (PyStr.lstrip s).
Proof.
  assert (∀ u, match u with String a _ => PyStr.is_space a = false | "" => True end →
               PyStr.lstrip (PyStr.rstrip u) = PyStr.rstrip u) as Hhead.
  { intros [|a u] Ha; [done|]. rewrite rstrip_cons.
    destruct (PyStr.rstrip u); rewrite ?Ha; simpl; by rewrite Ha. }
  apply Hhead. induction s as [|a s IH]; [done|]. simpl.
  by destruct (PyStr.is_space a) eqn:Ha.
Qed.

Lemma strip_idemp s : PyStr.strip (PyStr.strip s) = PyStr.strip s.
Proof. unfold PyStr.strip. by rewrite lstrip_rstrip_lstrip, rstrip_idemp. Qed.

End decoder_more.

(** X7.  The scanning loop of the decoder always ends within [len(code)]
    iterations, and its tokens, joined, give back the code: no character is
    lost, repeated or reordered.  Every token is one character long or is
    one of "Th", "St", "Sn". *)
Theorem tokenize_loop_round_trip (code : string) :
  ∃ tokens,
    tokenize_loop (String.length code) code 0 [] = Some tokens
    ∧ foldr String.app "" tokens = code
    ∧ Forall (λ t, String.length t = 1%nat ∨ t ∈ ["Th"; "St"; "Sn"]) tokens.
Proof.
  exists (DecoderSpec.tokens code).
  split; [apply tokenize_loop_run|]. split; [apply tokens_concat|apply tokens_sizes].
Qed.

Lemma decode_days_names (code : value) d :
  d ∈ decode_days code →
  d ∈ ["Mon"; "Tue"; "Wed"; "Thu"; "Fri"; "Sat"; "Sun"].
Proof.
  destruct code as [|code]; [by intros ?%elem_of_nil|].
  rewrite decode_days_decode.
  intros (t & _ & Ht)%elem_of_decode. by apply weekday_Some in Ht as [? _].
Qed.

Lemma decode_days_NoDup (code : value) : NoDup (decode_days code).
Proof.
  destruct code as [|code]; [constructor|].
  rewrite decode_days_decode. apply NoDup_first_occurrences.
Qed.

(** X8.  Whatever it is given, the decoder returns a list without repeats
    whose elements are among the seven weekday names, hence of length at
    most seven. *)
Theorem decode_days_weekday_set (code : value) :
  NoDup (decode_days code)
  ∧ (∀ d, d ∈ decode_days code →
          d ∈ ["Mon"; "Tue"; "Wed"; "Thu"; "Fri"; "Sat"; "Sun"])
  ∧ (length (decode_days code) ≤ 7)%nat.
Proof.
  split; [apply decode_days_NoDup|]. split; [apply decode_days_names|].
  apply (submseteq_length _ ["Mon"; "Tue"; "Wed"; "Thu"; "Fri"; "Sat"; "Sun"]).
  apply NoDup_submseteq; [apply decode_days_NoDup|apply decode_days_names].
Qed.

(** X9.  A weekday is in the decoded list exactly when one of the tokens
    scanned from the trimmed code is a key of [DAY_TOKEN_MAP] with that
    weekday as value; the other tokens are dropped without error. *)
Theorem decode_days_elem (d code : string) :
  d ∈ decode_days (Str code)
  ↔ ∃ tokens t,
      tokenize_loop (String.length (PyStr.strip code)) (PyStr.strip code) 0 []
      = Some tokens
      ∧ t ∈ tokens ∧ DAY_TOKEN_MAP !! t = Some d.
Proof.
  rewrite decode_days_decode, elem_of_decode. split.
  - intros (t & Ht & Hd). exists (DecoderSpec.tokens (PyStr.strip code)), t.
    by rewrite tokenize_loop_run, DAY_TOKEN_MAP_weekday.
  - intros (tokens & t & Hrun & Ht & Hd). rewrite tokenize_loop_run in Hrun.
    injection Hrun as <-. exists t. by rewrite <-DAY_TOKEN_MAP_weekday.
Qed.

(** X10.  Trimming is applied once more inside the decoder and changes
    nothing the second time: decoding a trimmed code equals decoding the
    code, so the day list of a preprocessed row is the decoding of the raw
    Days text (with a missing cell read as the text "nan"). *)
Theorem decode_days_trimmed :
  (∀ code, decode_days (Str (PyStr.strip code)) = decode_days (Str code))
  ∧ (∀ i raw,
       Day_List (normalize_row i raw) = decode_days (astype_str (cell "Days" raw))).
Proof.
  assert (∀ code, decode_days (Str (PyStr.strip code)) = decode_days (Str code))
    as Htrim.
  { intros code. unfold decode_days. by rewrite strip_idemp. }
  split; [done|]. intros i raw. unfold normalize_row.
  destruct (parse_interval_smart _) as [[[??]?]?]. simpl.
  destruct (cell "Days" raw) as [|days]; simpl; [done|apply Htrim].
Qed.

(** X11.  Codes are case-sensitive and need one of the letters M, T, W, F,
    S: a code in which none of these occurs decodes to the empty list. *)
Theorem decode_days_needs_initial (code : string) :
  (∀ c, c ∈ ["M"; "T"; "W"; "F"; "S"]%char →
        PyStr.contains_char c code = false) →
  decode_days (Str code) = [].
Proof.
  intros Hnone. destruct (decode_days (Str code)) as [|d ds] eqn:Hdec; [done|].
  assert (d ∈ DecoderSpec.decode code) as Hd
    by (rewrite <-decode_days_decode, Hdec; left).
  apply elem_of_decode in Hd as (t & Ht & Hday).
  apply weekday_Some in Hday as (_ & c & r & -> & Hc).
  apply tokens_heads in Ht as (c' & r' & [= <- <-] & Hin).
  apply contains_char_strip in Hin. rewrite (Hnone c Hc) in Hin. done.
Qed.

Lemma decode_days_needs_initial_witness : decode_days (Str "mwf th") = [].
Proof.
  apply (decode_days_needs_initial "mwf th").
  intros c Hc. rewrite !elem_of_cons, elem_of_nil in Hc.
  destruct Hc as [->|[->|[->|[->|[->|[]]]]]]; reflexivity.
Defined.

(** * Further properties of preprocessing *)

Section preprocess_more.








End preprocess_more.









(** * Further properties of the availability checker *)

Section availability_more.





End availability_more.






(** * The reason text of a too-long interval *)

Lemma string_app_inv_tail (s1 s2 t : string) : s1 +:+ t = s2 +:+ t → s1 = s2.
Proof.
  revert s2. induction s1 as [|a s1 IH]; intros [|b s2] Heq; [done|..].
  - apply (f_equal String.length) in Heq.
    rewrite app_empty_l, app_cons in Heq. simpl in Heq.
    rewrite string_length_app in Heq. lia.
  - apply (f_equal String.length) in Heq.
    rewrite app_empty_l, app_cons in Heq. simpl in Heq.
    rewrite string_length_app in Heq. lia.
  - rewrite !app_cons in Heq. injection Heq as <- Heq. f_equal. by apply IH.
Qed.

(** X19.  The reason of a too-long rejection determines the duration it
    reports: two such reasons are equal only for equal durations, and the
    reason of a row is "Duration too long (N min)" for exactly one N. *)
Theorem too_long_message_inj (n m : Z) :
  too_long_message n = too_long_message m → n = m.
Proof.
  unfold too_long_message. intros Heq.
  apply (inj (String.app "Duration too long (")) in Heq.
  apply string_app_inv_tail in Heq. by apply (inj pretty) in Heq.
Qed.

Lemma too_long_message_inj_witness : 660 = 600 + 60.
Proof. apply (too_long_message_inj 660 (600 + 60)). reflexivity. Defined.
